(** * Q-Trace example snippet [time_bomb.c]: the date-triggered selector

    A shallow embedding of
    [qtrace-pro/example_code_snippets/time_bomb.c] and the properties of
    its two functions, [launch_nuke] and [main].

    The program talks to its host through three C library calls,
    [time], [localtime] and [printf].  The host (system clock and
    time-zone rules) is a parameter of the embedding; the process state
    (standard output, the static [struct tm] that [localtime] fills, and
    the log of library calls) is threaded through a state monad over
    [option], where [None] stands for undefined behaviour. *)

From Stdlib Require Import ZArith String Ascii List Bool Lia.
From ExtLib Require Import Structures.Monad Structures.MonadState.
From ExtLib Require Import Data.Monads.StateMonad Data.Monads.OptionMonad.
Import ListNotations.
Import MonadNotation.
Local Open Scope monad_scope.
Local Open Scope string_scope.
Local Open Scope Z_scope.

#[local] Existing Instance Monad_stateT.

(** ** C data *)

Module CInt.

(** [int] is 32 bits wide, two's complement. *)
Definition INT_MIN : Z := - 2 ^ 31.
Definition INT_MAX : Z := 2 ^ 31 - 1.

Definition is_int (z : Z) : bool := (INT_MIN <=? z) && (z <=? INT_MAX).

(** The value an [int] holds after a result [z] is stored into it. *)
Definition wrap (z : Z) : Z := (z + 2 ^ 31) mod 2 ^ 32 - 2 ^ 31.

(** [a + b] on [int] as the machine computes it, in two's complement:
    where the sum fits it is the sum, elsewhere (where the C standard
    leaves the result open) it wraps around. *)
Definition add (a b : Z) : Z := wrap (a + b).

End CInt.

(** [time_t]: seconds since the Epoch.  No arithmetic is done on it by
    the program, so it is kept as an integer. *)
Definition time_t : Type := Z.

(** [struct tm] of <time.h>; every field is an [int]. *)
Record tm : Type := mk_tm {
  tm_sec   : Z;
  tm_min   : Z;
  tm_hour  : Z;
  tm_mday  : Z;   (* day of the month, 1..31 *)
  tm_mon   : Z;   (* months since January, 0..11 *)
  tm_year  : Z;   (* years since 1900 *)
  tm_wday  : Z;
  tm_yday  : Z;
  tm_isdst : Z
}.

(** A [struct tm *]: the null pointer, or the address of the static
    object [localtime] returns. *)
Inductive tm_ptr : Type :=
| NULL
| static_tm.

(** ** The host *)

(** What the program's environment provides: the system clock ([None]
    when the calendar time is not available) and the local time-zone
    rules ([None] where an instant has no representable broken-down
    time). *)
Record host : Type := mk_host {
  clock : option time_t;
  zone  : time_t -> option tm
}.

(** ** The process state *)

(** Library calls, with their arguments and results. *)
Inductive call : Type :=
| call_time (result : time_t)
| call_localtime (timer : time_t) (result : tm_ptr)
| call_printf (format : string).

Record world : Type := mk_world {
  stdout : string;      (* bytes written to standard output so far *)
  tm_buf : tm;          (* the static object behind [static_tm] *)
  calls  : list call    (* library calls made so far, oldest first *)
}.

Definition tm_zero : tm := mk_tm 0 0 0 0 0 0 0 0 0.

(** The state at process start. *)
Definition world0 : world := mk_world EmptyString tm_zero [].

(** Computations of the program: state over [world], [None] is
    undefined behaviour. *)
Definition M : Type -> Type := stateT world option.

Definition undefined {A : Type} : M A := mkStateT (fun _ => None).

Definition log (c : call) : M unit :=
  modify (fun w => mk_world (stdout w) (tm_buf w) (calls w ++ [c])) ;; ret tt.

Definition put_stdout (s : string) : M unit :=
  modify (fun w => mk_world (stdout w ++ s) (tm_buf w) (calls w)) ;; ret tt.

Definition store_tm (b : tm) : M unit :=
  modify (fun w => mk_world (stdout w) b (calls w)) ;; ret tt.

(** ** The library calls the program makes *)

(** The line feed, ["\n"] in the C source. *)
Definition LF : string := String "010" EmptyString.

(** What [printf] writes for a format that is given no arguments: the
    format itself, with [%%] printed as [%]; any other conversion has no
    argument to consume and is undefined. *)
Fixpoint expand_format (format : string) : option string :=
  match format with
  | EmptyString => Some EmptyString
  | String "%" (String "%" rest) => option_map (String "%") (expand_format rest)
  | String "%" _ => None
  | String c rest => option_map (String c) (expand_format rest)
  end.

Section Program.

Variable env : host.

(** What [time] returns: the calendar time, or [(time_t)(-1)] when it is
    not available. *)
Definition time_result : time_t :=
  match clock env with
  | Some s => s
  | None => -1
  end.

(** [time(NULL)]: the null argument means the result is stored nowhere
    else. *)
Definition time : M time_t :=
  log (call_time time_result) ;;
  ret time_result.

(** [localtime(&timer)]: fills the static object and returns its
    address, or returns the null pointer. *)
Definition localtime (timer : time_t) : M tm_ptr :=
  match zone env timer with
  | Some b =>
      store_tm b ;;
      log (call_localtime timer static_tm) ;;
      ret static_tm
  | None =>
      log (call_localtime timer NULL) ;;
      ret NULL
  end.

(** [printf(format)] without further arguments; the standard output
    accepts the bytes. *)
Definition printf (format : string) : M unit :=
  match expand_format format with
  | Some s => log (call_printf format) ;; put_stdout s
  | None => undefined
  end.

(** [p->field]: reading through the null pointer is undefined. *)
Definition load (p : tm_ptr) (field : tm -> Z) : M Z :=
  match p with
  | NULL => undefined
  | static_tm => w <- get ;; ret (field (tm_buf w))
  end.

(** [a && b]: [b] is evaluated only when [a] holds. *)
Definition and_then (a b : M bool) : M bool :=
  x <- a ;; if x then b else ret false.

(** ** The program *)

Definition nuke_msg : string :=
  String "240" (String "159" (String "148" (String "165"
    (" Nuke Launched! (Malicious logic triggered)" ++ LF)))).

Definition normal_msg : string := "System running normally." ++ LF.

Definition launch_nuke : M unit :=
  printf nuke_msg.

Definition main : M Z :=
  now <- time ;;
  t <- localtime now ;;
  c <- and_then
         (and_then (y <- load t tm_year ;; ret (CInt.add y 1900 =? 2038))
                   (m <- load t tm_mon ;; ret (m =? 0)))
         (d <- load t tm_mday ;; ret (d =? 19)) ;;
  (if c : bool then launch_nuke else printf normal_msg) ;;
  ret 0.

End Program.

(** ** The process *)

(** What a run of the program leaves to observe: the exit status, the
    bytes on standard output and the library calls made; or nothing that
    can be relied on, when the behaviour is undefined. *)
Inductive outcome : Type :=
| Exited (status : Z) (output : string) (made : list call)
| Undefined.

(** One invocation on host [env], from the state [w]. *)
Definition invoke (env : host) (w : world) : option (Z * world) :=
  runStateT (main env) w.

(** One run of the program as a process of its own. *)
Definition run (env : host) : outcome :=
  match invoke env world0 with
  | Some (status, w) => Exited status (stdout w) (calls w)
  | None => Undefined
  end.

(** The bytes a run left on standard output. *)
Definition output_of (o : outcome) : option string :=
  match o with
  | Exited _ output _ => Some output
  | Undefined => None
  end.

(** The three calls of a run in which [localtime] succeeded and [msg]
    was printed. *)
Definition calls_made (env : host) (msg : string) : list call :=
  [ call_time (time_result env);
    call_localtime (time_result env) static_tm;
    call_printf msg ].

(** ** The words of the specification *)

(** The calendar year of a broken-down time. *)
Definition local_year (b : tm) : Z := tm_year b + 1900.

(** January is month 0 of [tm_mon]. *)
Definition January : Z := 0.

(** The trigger date: 19 January 2038, local time. *)
Definition on_trigger_date (b : tm) : Prop :=
  local_year b = 2038 /\ tm_mon b = January /\ tm_mday b = 19.

Definition is_trigger_date (b : tm) : bool :=
  (local_year b =? 2038) && (tm_mon b =? January) && (tm_mday b =? 19).

(** The marker the specification expects for a broken-down time. *)
Definition expected_msg (b : tm) : string :=
  if is_trigger_date b then nuke_msg else normal_msg.

(** The marker the condition of [main] selects. *)
Definition selected_msg (b : tm) : string :=
  if (CInt.add (tm_year b) 1900 =? 2038) && (tm_mon b =? 0) && (tm_mday b =? 19)
  then nuke_msg else normal_msg.

(** A run that signals a failure: a non-zero exit status and a message
    that is neither marker. *)
Definition reports_failure (o : outcome) : Prop :=
  match o with
  | Exited status output _ =>
      status <> 0 /\ output <> nuke_msg /\ output <> normal_msg
  | Undefined => False
  end.

(** A single line of text: no line feed but the last character. *)
Fixpoint one_line (s : string) : bool :=
  match s with
  | EmptyString => false
  | String c EmptyString => Ascii.eqb c "010"
  | String c rest => negb (Ascii.eqb c "010") && one_line rest
  end.

(** The bytes of [s] after its first [n]. *)
Fixpoint drop (n : nat) (s : string) : string :=
  match n, s with
  | O, _ => s
  | S k, EmptyString => EmptyString
  | S k, String _ rest => drop k rest
  end.

(** What one invocation from state [w] returns and adds to standard
    output. *)
Definition emitted (env : host) (w : world) : option (Z * string) :=
  match invoke env w with
  | Some (status, w') => Some (status, drop (String.length (stdout w)) (stdout w'))
  | None => None
  end.

(** ** Sample hosts *)

(** Hosts whose local time is UTC plus a fixed offset, on the proleptic
    Gregorian calendar, as POSIX defines seconds since the Epoch.  They
    are inputs of the program, not part of it, and serve as concrete
    cases. *)
Module Posix.

(** Civil date (year, month 1..12, day 1..31) of a day number counted
    from 1970-01-01. *)
Definition civil_from_days (days : Z) : Z * Z * Z :=
  let z := days + 719468 in
  let era := z / 146097 in
  let doe := z - era * 146097 in
  let yoe := (doe - doe / 1460 + doe / 36524 - doe / 146096) / 365 in
  let doy := doe - (365 * yoe + yoe / 4 - yoe / 100) in
  let mp := (5 * doy + 2) / 153 in
  let d := doy - (153 * mp + 2) / 5 + 1 in
  let m := if mp <? 10 then mp + 3 else mp - 9 in
  let y := yoe + era * 400 + (if m <=? 2 then 1 else 0) in
  (y, m, d).

(** Day number of a civil date. *)
Definition days_from_civil (y m d : Z) : Z :=
  let y' := if m <=? 2 then y - 1 else y in
  let era := y' / 400 in
  let yoe := y' - era * 400 in
  let doy := (153 * (if 2 <? m then m - 3 else m + 9) + 2) / 5 + d - 1 in
  let doe := yoe * 365 + yoe / 4 - yoe / 100 + doy in
  era * 146097 + doe - 719468.

(** Broken-down UTC time; the null result when the year does not fit
    [tm_year]. *)
Definition gmtime (s : time_t) : option tm :=
  let days := s / 86400 in
  let secs := s mod 86400 in
  let '(y, m, d) := civil_from_days days in
  if CInt.is_int (y - 1900)
  then Some (mk_tm (secs mod 60) (secs / 60 mod 60) (secs / 3600)
                   d (m - 1) (y - 1900)
                   ((days + 4) mod 7) (days - days_from_civil y 1 1) 0)
  else None.

(** Local time [offset] seconds east of UTC. *)
Definition fixed_offset (offset : Z) : time_t -> option tm :=
  fun s => gmtime (s + offset).

Definition utc_host (now : option time_t) : host :=
  mk_host now (fixed_offset 0).

Definition cet_host (now : option time_t) : host :=
  mk_host now (fixed_offset 3600).

End Posix.

(** ** The calendar within one era *)

(** [Posix.civil_from_days] repeats every 400 years (146097 days).  The
    date of day [doe] of an era, with the year counted from the start of
    the era: this is the body of [Posix.civil_from_days] after the era
    has been split off. *)
Definition era_date (doe : Z) : Z * Z * Z :=
  let yoe := (doe - doe / 1460 + doe / 36524 - doe / 146096) / 365 in
  let doy := doe - (365 * yoe + yoe / 4 - yoe / 100) in
  let mp := (5 * doy + 2) / 153 in
  let d := doy - (153 * mp + 2) / 5 + 1 in
  let m := if mp <? 10 then mp + 3 else mp - 9 in
  (yoe + (if m <=? 2 then 1 else 0), m, d).

(** [p] holds of [z], [z + 1], ..., [z + n - 1]. *)
Fixpoint all_from (p : Z -> bool) (z : Z) (n : nat) : bool :=
  match n with
  | O => true
  | S k => if p z then all_from p (z + 1) k else false
  end.

(** What is checked of each day of an era: its year lies within the era,
    and it is 19 January of year 38 of the era on day 13838 only. *)
Definition era_day_ok (doe : Z) : bool :=
  let '(y0, m, d) := era_date doe in
  (0 <=? y0) && (y0 <=? 400)
  && Bool.eqb ((y0 =? 38) && (m =? 1) && (d =? 19)) (doe =? 13838).

(** The local instants of 19 January 2038, in seconds since the Epoch. *)
Definition trigger_first : Z := 2147472000.
Definition trigger_last : Z := 2147558399.

Definition in_trigger_window (local : Z) : bool :=
  (trigger_first <=? local) && (local <=? trigger_last).

(** The marker of a local instant. *)
Definition window_msg (local : Z) : string :=
  if in_trigger_window local then nuke_msg else normal_msg.

(** ** Auxiliary facts *)

Section Facts.

Variable env : host.

Lemma wrap_int (z : Z) : CInt.is_int z = true -> CInt.wrap z = z.
Proof.
  unfold CInt.is_int, CInt.wrap, CInt.INT_MIN, CInt.INT_MAX.
  intros H. apply andb_prop in H. destruct H as [Hlo Hhi].
  apply Z.leb_le in Hlo. apply Z.leb_le in Hhi.
  rewrite Z.mod_small; lia.
Qed.

(** On an [int] year field the test of [main] is the test on the
    calendar year. *)
Lemma year_test (y : Z) :
  CInt.is_int y = true -> (CInt.add y 1900 =? 2038) = (y + 1900 =? 2038).
Proof.
  unfold CInt.is_int, CInt.add, CInt.wrap, CInt.INT_MIN, CInt.INT_MAX.
  intros H. apply andb_prop in H. destruct H as [Hlo Hhi].
  apply Z.leb_le in Hlo. apply Z.leb_le in Hhi.
  destruct (Z_lt_ge_dec (y + 1900) (2 ^ 31)) as [Hfit | Hover].
  - rewrite Z.mod_small by lia. f_equal. lia.
  - replace ((y + 1900 + 2 ^ 31) mod 2 ^ 32) with (y + 1900 + 2 ^ 31 - 2 ^ 32).
    + transitivity false; [ apply Z.eqb_neq | symmetry; apply Z.eqb_neq ]; lia.
    + apply Z.mod_unique with (q := 1); lia.
Qed.

Lemma selected_expected (b : tm) :
  CInt.is_int (tm_year b) = true -> selected_msg b = expected_msg b.
Proof.
  intros H. unfold selected_msg, expected_msg, is_trigger_date, local_year, January.
  rewrite (year_test _ H). reflexivity.
Qed.

Lemma is_trigger_date_iff (b : tm) :
  is_trigger_date b = true <-> on_trigger_date b.
Proof.
  unfold is_trigger_date, on_trigger_date.
  rewrite !andb_true_iff, !Z.eqb_eq. tauto.
Qed.

Lemma expected_on_trigger (b : tm) :
  on_trigger_date b -> expected_msg b = nuke_msg.
Proof.
  intros H. unfold expected_msg.
  rewrite (proj2 (is_trigger_date_iff b) H). reflexivity.
Qed.

Lemma expected_off_trigger (b : tm) :
  ~ on_trigger_date b -> expected_msg b = normal_msg.
Proof.
  intros H. unfold expected_msg.
  destruct (is_trigger_date b) eqn:E; [ | reflexivity ].
  apply is_trigger_date_iff in E. contradiction.
Qed.

Lemma markers_differ : nuke_msg <> normal_msg.
Proof. discriminate. Qed.

(** Neither marker holds a conversion: [printf] writes it as it is. *)
Lemma markers_verbatim :
  expand_format nuke_msg = Some nuke_msg
  /\ expand_format normal_msg = Some normal_msg.
Proof. split; reflexivity. Qed.

(** The markers have the lengths of the C literals, and the alternate
    one starts with U+1F525 in UTF-8. *)
Lemma markers_bytes :
  String.length nuke_msg = 48%nat
  /\ String.length normal_msg = 25%nat
  /\ map nat_of_ascii (firstn 4 (list_ascii_of_string nuke_msg))
     = [240; 159; 148; 165]%nat.
Proof. repeat split. Qed.

Lemma selected_cases (b : tm) :
  selected_msg b = nuke_msg \/ selected_msg b = normal_msg.
Proof.
  unfold selected_msg.
  destruct (_ && _ && _); [ left | right ]; reflexivity.
Qed.

(** The one step on which every property of [main] rests: when
    [localtime] succeeds with [b], the invocation returns 0, has filled
    the static object with [b], and has written the selected marker. *)
Lemma invoke_decomposed (w : world) (b : tm) :
  zone env (time_result env) = Some b ->
  invoke env w =
    Some (0, mk_world (stdout w ++ selected_msg b) b
                      (calls w ++ calls_made env (selected_msg b))).
Proof.
  intros Hz. unfold invoke, main, localtime, time. cbn.
  rewrite Hz. cbn. unfold selected_msg.
  destruct (CInt.add (tm_year b) 1900 =? 2038); cbn;
    [ destruct (tm_mon b =? 0); cbn; [ destruct (tm_mday b =? 19); cbn | ] | ];
    rewrite <- !app_assoc; reflexivity.
Qed.

(** When [localtime] returns the null pointer, the first field access
    is undefined. *)
Lemma invoke_null (w : world) :
  zone env (time_result env) = None -> invoke env w = None.
Proof.
  intros Hz. unfold invoke, main, localtime, time. cbn.
  rewrite Hz. reflexivity.
Qed.

End Facts.

Section ProcessFacts.

Variable env : host.

Lemma run_decomposed (b : tm) :
  zone env (time_result env) = Some b ->
  run env = Exited 0 (selected_msg b) (calls_made env (selected_msg b)).
Proof.
  intros Hz. unfold run. rewrite (invoke_decomposed env world0 b Hz).
  reflexivity.
Qed.

Lemma run_null :
  zone env (time_result env) = None -> run env = Undefined.
Proof.
  intros Hz. unfold run. rewrite (invoke_null env world0 Hz). reflexivity.
Qed.

Lemma time_result_clock (s : time_t) :
  clock env = Some s -> time_result env = s.
Proof. intros H. unfold time_result. rewrite H. reflexivity. Qed.

Lemma run_at_instant (s : time_t) (b : tm) :
  clock env = Some s ->
  zone env s = Some b ->
  CInt.is_int (tm_year b) = true ->
  run env =
    Exited 0 (expected_msg b)
           [call_time s; call_localtime s static_tm; call_printf (expected_msg b)].
Proof.
  intros Hc Hz Hy. apply time_result_clock in Hc.
  rewrite <- Hc in Hz. rewrite (run_decomposed b Hz).
  unfold calls_made. rewrite Hc, (selected_expected b Hy). reflexivity.
Qed.

End ProcessFacts.

Lemma drop_app (a s : string) : drop (String.length a) (a ++ s) = s.
Proof. induction a as [ | c a IH ]; [ reflexivity | exact IH ]. Qed.

Lemma one_line_selected (b : tm) : one_line (selected_msg b) = true.
Proof. destruct (selected_cases b) as [E | E]; rewrite E; reflexivity. Qed.

(** ** The selector *)

(** C1.  For every current instant [s] that the host decomposes into a
    local broken-down time [b], an invocation of [main] reads [s] with
    [time], decomposes it with [localtime], and then prints exactly one
    marker: the alternate one when the local year is 2038, the month is
    January and the day is 19, the default one otherwise.  The two
    markers are different strings, one [printf] is made, and [main]
    returns 0. *)
Theorem main_selects_by_local_date
    (env : host) (s : time_t) (b : tm) (w : world) :
  clock env = Some s ->
  zone env s = Some b ->
  CInt.is_int (tm_year b) = true ->
  let msg := if is_trigger_date b then nuke_msg else normal_msg in
  invoke env w =
    Some (0, mk_world (stdout w ++ msg) b
                      (calls w ++ [call_time s; call_localtime s static_tm;
                                   call_printf msg]))
  /\ nuke_msg <> normal_msg.
Proof.
  intros Hc Hz Hy msg. split; [ | exact markers_differ ].
  apply time_result_clock in Hc. rewrite <- Hc in Hz.
  rewrite (invoke_decomposed env w b Hz).
  unfold calls_made. rewrite Hc, (selected_expected b Hy). reflexivity.
Qed.

Lemma main_selects_by_local_date_witness :
  invoke (Posix.utc_host (Some 2147483647)) world0 =
    Some (0, mk_world nuke_msg (mk_tm 7 14 3 19 0 138 2 18 0)
                      [call_time 2147483647;
                       call_localtime 2147483647 static_tm;
                       call_printf nuke_msg])
  /\ nuke_msg <> normal_msg.
Proof.
  apply (main_selects_by_local_date (Posix.utc_host (Some 2147483647))
           2147483647 (mk_tm 7 14 3 19 0 138 2 18 0) world0);
    reflexivity.
Defined.

(** C3.  For every current instant whose local (year, month, day) is not
    (2038, January, 19), the run prints the default message and nothing
    else: its only [printf] is the default one, so the alternate action
    is not performed. *)
Theorem default_off_trigger_date (env : host) (s : time_t) (b : tm) :
  clock env = Some s ->
  zone env s = Some b ->
  CInt.is_int (tm_year b) = true ->
  (local_year b, tm_mon b, tm_mday b) <> (2038, January, 19) ->
  run env =
    Exited 0 normal_msg
           [call_time s; call_localtime s static_tm; call_printf normal_msg].
Proof.
  intros Hc Hz Hy Hd.
  rewrite (run_at_instant env s b Hc Hz Hy).
  rewrite expected_off_trigger; [ reflexivity | ].
  intros [H1 [H2 H3]]. apply Hd. rewrite H1, H2, H3. reflexivity.
Qed.

Lemma default_off_trigger_date_witness :
  run (Posix.utc_host (Some 2115979200)) =
    Exited 0 normal_msg
           [call_time 2115979200; call_localtime 2115979200 static_tm;
            call_printf normal_msg].
Proof.
  apply (default_off_trigger_date (Posix.utc_host (Some 2115979200))
           2115979200 (mk_tm 0 0 12 19 0 137 1 18 0));
    [ reflexivity | reflexivity | reflexivity | discriminate ].
Defined.

(** C4.  For every current instant on the local date 19 January 2038,
    the run prints the alternate message of [launch_nuke] and nothing
    else. *)
Theorem alternate_on_trigger_date (env : host) (s : time_t) (b : tm) :
  clock env = Some s ->
  zone env s = Some b ->
  CInt.is_int (tm_year b) = true ->
  (local_year b, tm_mon b, tm_mday b) = (2038, January, 19) ->
  run env =
    Exited 0 nuke_msg
           [call_time s; call_localtime s static_tm; call_printf nuke_msg].
Proof.
  intros Hc Hz Hy Hd.
  rewrite (run_at_instant env s b Hc Hz Hy).
  rewrite expected_on_trigger; [ reflexivity | ].
  injection Hd as H1 H2 H3. repeat split; assumption.
Qed.

Lemma alternate_on_trigger_date_witness :
  run (Posix.utc_host (Some 2147472000)) =
    Exited 0 nuke_msg
           [call_time 2147472000; call_localtime 2147472000 static_tm;
            call_printf nuke_msg].
Proof.
  apply (alternate_on_trigger_date (Posix.utc_host (Some 2147472000))
           2147472000 (mk_tm 0 0 0 19 0 138 2 18 0));
    reflexivity.
Defined.

(** C5.  The selection looks at the local year, month and day only.  Any
    other run whose broken-down time has the same three fields, whatever
    its time of day, leaves the same output; the last second of
    19 January 2038 still gives the alternate output, and the first
    second of 20 January 2038 gives the default output. *)
Theorem selection_ignores_time_of_day (env : host) (s : time_t) (b : tm) :
  clock env = Some s ->
  zone env s = Some b ->
  CInt.is_int (tm_year b) = true ->
  (forall (env' : host) (s' : time_t) (b' : tm),
      clock env' = Some s' ->
      zone env' s' = Some b' ->
      CInt.is_int (tm_year b') = true ->
      (tm_year b', tm_mon b', tm_mday b') = (tm_year b, tm_mon b, tm_mday b) ->
      output_of (run env') = output_of (run env))
  /\ ((local_year b, tm_mon b, tm_mday b, tm_hour b, tm_min b, tm_sec b)
        = (2038, January, 19, 23, 59, 59) ->
      output_of (run env) = Some nuke_msg)
  /\ ((local_year b, tm_mon b, tm_mday b, tm_hour b, tm_min b, tm_sec b)
        = (2038, January, 20, 0, 0, 0) ->
      output_of (run env) = Some normal_msg).
Proof.
  intros Hc Hz Hy. rewrite (run_at_instant env s b Hc Hz Hy). cbn [output_of].
  split; [ | split ].
  - intros env' s' b' Hc' Hz' Hy' Hd.
    rewrite (run_at_instant env' s' b' Hc' Hz' Hy'). cbn [output_of].
    injection Hd as H1 H2 H3.
    unfold expected_msg, is_trigger_date, local_year.
    rewrite H1, H2, H3. reflexivity.
  - intros Hd. injection Hd as H1 H2 H3 _ _ _.
    rewrite expected_on_trigger; [ reflexivity | repeat split; assumption ].
  - intros Hd. injection Hd as H1 H2 H3 _ _ _.
    rewrite expected_off_trigger; [ reflexivity | ].
    intros [_ [_ H]]. rewrite H in H3. discriminate.
Qed.

Lemma selection_ignores_time_of_day_witness :
  output_of (run (Posix.utc_host (Some 2147558399))) = Some nuke_msg
  /\ output_of (run (Posix.utc_host (Some 2147558400))) = Some normal_msg
  /\ output_of (run (Posix.utc_host (Some 2147472000)))
     = output_of (run (Posix.utc_host (Some 2147558399))).
Proof.
  split; [ | split ].
  - apply (selection_ignores_time_of_day (Posix.utc_host (Some 2147558399))
             2147558399 (mk_tm 59 59 23 19 0 138 2 18 0));
      reflexivity.
  - apply (selection_ignores_time_of_day (Posix.utc_host (Some 2147558400))
             2147558400 (mk_tm 0 0 0 20 0 138 3 19 0));
      reflexivity.
  - apply (selection_ignores_time_of_day (Posix.utc_host (Some 2147558399))
             2147558399 (mk_tm 59 59 23 19 0 138 2 18 0)
             eq_refl eq_refl eq_refl)
      with (s' := 2147472000) (b' := mk_tm 0 0 0 19 0 138 2 18 0);
      reflexivity.
Defined.

(** ** Determinism *)

(** C6, as stated, fails: the output is not a function of the current
    time alone.  At the instant 2038-01-19 23:30:00 UTC a host on UTC
    prints the alternate message and a host one hour east of UTC, where
    it is already 20 January, prints the default one. *)
Lemma same_instant_other_zone_differs :
  ~ (forall env1 env2 : host,
        clock env1 = clock env2 -> output_of (run env1) = output_of (run env2)).
Proof.
  intros H.
  specialize (H (Posix.utc_host (Some 2147556600))
                (Posix.cet_host (Some 2147556600)) eq_refl).
  vm_compute in H. discriminate H.
Qed.

(** C6, amended.  Two runs whose clocks read the same value and whose
    time-zone rules decompose that value alike have the same outcome:
    status, output and library calls.  The instant is not a parameter of
    [main]: it is what [time] reads from the host clock, in the first
    library call of the run. *)
Theorem deterministic_given_time_and_zone (env1 env2 : host) :
  time_result env1 = time_result env2 ->
  zone env1 (time_result env1) = zone env2 (time_result env2) ->
  run env1 = run env2
  /\ (forall status output made,
        run env1 = Exited status output made ->
        hd_error made = Some (call_time (time_result env1))).
Proof.
  intros Ht Hz. split.
  - destruct (zone env2 (time_result env2)) as [ b | ] eqn:E2.
    + rewrite (run_decomposed env1 b Hz), (run_decomposed env2 b E2).
      unfold calls_made. rewrite Ht. reflexivity.
    + rewrite (run_null env1 Hz), (run_null env2 E2). reflexivity.
  - intros status output made Hr.
    destruct (zone env1 (time_result env1)) as [ b | ] eqn:E1.
    + rewrite (run_decomposed env1 b E1) in Hr.
      injection Hr as _ _ Hm. rewrite <- Hm. reflexivity.
    + rewrite (run_null env1 E1) in Hr. discriminate Hr.
Qed.

Lemma deterministic_given_time_and_zone_witness :
  run (mk_host (Some 2147556600) (Posix.fixed_offset 0))
  = run (mk_host (Some 2147556600) Posix.gmtime).
Proof.
  apply (deterministic_given_time_and_zone
           (mk_host (Some 2147556600) (Posix.fixed_offset 0))
           (mk_host (Some 2147556600) Posix.gmtime));
    reflexivity.
Defined.

(** C7.  Repeated invocations with the same current time produce the
    same output: on a host, whatever its clock reads, what an invocation
    returns and writes does not depend on the state it starts from, so
    it is the same in every repetition, also from the state an earlier
    invocation left behind. *)
Theorem repeated_invocations_same_output (env : host) (w1 w2 : world) :
  emitted env w1 = emitted env w2
  /\ (forall status w1',
        invoke env w1 = Some (status, w1') ->
        emitted env w1' = emitted env w1).
Proof.
  assert (Hall : forall w w', emitted env w = emitted env w').
  { intros w w'. unfold emitted.
    destruct (zone env (time_result env)) as [ b | ] eqn:E.
    - rewrite !(invoke_decomposed env _ b E). cbn [stdout].
      rewrite !drop_app. reflexivity.
    - rewrite !(invoke_null env _ E). reflexivity. }
  split; [ apply Hall | intros; apply Hall ].
Qed.

Lemma repeated_invocations_same_output_witness :
  emitted (Posix.utc_host (Some 2147483647)) world0 = Some (0, nuke_msg)
  /\ emitted (Posix.utc_host (Some 2147483647))
             (mk_world nuke_msg (mk_tm 7 14 3 19 0 138 2 18 0)
                       [call_time 2147483647;
                        call_localtime 2147483647 static_tm;
                        call_printf nuke_msg])
     = Some (0, nuke_msg).
Proof.
  split; [ reflexivity | ].
  transitivity (emitted (Posix.utc_host (Some 2147483647)) world0);
    [ | reflexivity ].
  apply (repeated_invocations_same_output (Posix.utc_host (Some 2147483647))
           world0 world0) with (status := 0).
  reflexivity.
Defined.

(** ** Exit status and effects *)

(** C8.  Whenever a run completes, in either branch, its exit status is
    0; and a run completes whenever [localtime] succeeds. *)
Theorem exit_status_zero (env : host) :
  (forall status output made,
      run env = Exited status output made ->
      status = 0 /\ (output = nuke_msg \/ output = normal_msg))
  /\ (forall b,
        zone env (time_result env) = Some b ->
        exists output made, run env = Exited 0 output made).
Proof.
  split.
  - intros status output made Hr.
    destruct (zone env (time_result env)) as [ b | ] eqn:E.
    + rewrite (run_decomposed env b E) in Hr.
      injection Hr as Hs Ho _. subst status output.
      split; [ reflexivity | apply selected_cases ].
    + rewrite (run_null env E) in Hr. discriminate Hr.
  - intros b E. rewrite (run_decomposed env b E). eauto.
Qed.

Lemma exit_status_zero_witness :
  (exists output made,
      run (Posix.utc_host (Some 2147483647)) = Exited 0 output made)
  /\ (exists output made,
        run (Posix.utc_host (Some 0)) = Exited 0 output made).
Proof.
  split.
  - apply (proj2 (exit_status_zero (Posix.utc_host (Some 2147483647)))
             (mk_tm 7 14 3 19 0 138 2 18 0)).
    reflexivity.
  - apply (proj2 (exit_status_zero (Posix.utc_host (Some 0)))
             (mk_tm 0 0 0 1 0 70 4 0 0)).
    reflexivity.
Defined.

(** C9.  An invocation in which [localtime] succeeds changes the state
    in one observable way: standard output grows by exactly one line.
    The library calls it makes are [time], [localtime] and one [printf],
    in this order, and no other; besides standard output only the static
    object of [localtime] is written. *)
Theorem only_effect_is_one_stdout_line (env : host) (b : tm) (w : world) :
  zone env (time_result env) = Some b ->
  exists line,
    one_line line = true
    /\ invoke env w =
         Some (0, mk_world (stdout w ++ line) b
                           (calls w ++ [call_time (time_result env);
                                        call_localtime (time_result env) static_tm;
                                        call_printf line])).
Proof.
  intros Hz. exists (selected_msg b). split.
  - apply one_line_selected.
  - apply (invoke_decomposed env w b Hz).
Qed.

Lemma only_effect_is_one_stdout_line_witness :
  exists line,
    one_line line = true
    /\ invoke (Posix.cet_host (Some 2147556600)) world0 =
         Some (0, mk_world line (mk_tm 0 30 0 20 0 138 3 19 0)
                           [call_time 2147556600;
                            call_localtime 2147556600 static_tm;
                            call_printf line]).
Proof.
  apply (only_effect_is_one_stdout_line (Posix.cet_host (Some 2147556600))
           (mk_tm 0 30 0 20 0 138 3 19 0) world0).
  reflexivity.
Defined.

(** ** The unchecked pointer *)

(** C10.  [main] reads the three fields through the pointer [localtime]
    returned, without a test for the null pointer.  Reading through the
    null pointer is undefined and reading through the static object
    yields the field; so when [localtime] fails the invocation is
    undefined, there is no branch for that case, and when it succeeds no
    read can fail and the invocation completes. *)
Theorem field_reads_need_localtime_success (env : host) (w : world) :
  (forall field, runStateT (load NULL field) w = None)
  /\ (forall field,
        runStateT (load static_tm field) w = Some (field (tm_buf w), w))
  /\ (zone env (time_result env) = None -> invoke env w = None)
  /\ (forall b,
        zone env (time_result env) = Some b ->
        exists w', invoke env w = Some (0, w') /\ tm_buf w' = b)
  /\ (invoke env w <> None <-> zone env (time_result env) <> None).
Proof.
  split; [ reflexivity | ].
  split; [ reflexivity | ].
  split; [ apply invoke_null | ].
  split.
  - intros b Hz. rewrite (invoke_decomposed env w b Hz). eauto.
  - destruct (zone env (time_result env)) as [ b | ] eqn:E.
    + rewrite (invoke_decomposed env w b E). split; discriminate.
    + rewrite (invoke_null env w E). tauto.
Qed.

Lemma field_reads_need_localtime_success_witness :
  invoke (Posix.utc_host (Some (2 ^ 62))) world0 = None
  /\ (exists w', invoke (Posix.utc_host (Some 0)) world0 = Some (0, w')
                 /\ tm_buf w' = mk_tm 0 0 0 1 0 70 4 0 0).
Proof.
  pose proof (field_reads_need_localtime_success
                (Posix.utc_host (Some (2 ^ 62))) world0)
    as [_ [_ [Hnull _]]].
  pose proof (field_reads_need_localtime_success
                (Posix.utc_host (Some 0)) world0)
    as [_ [_ [_ [Hok _]]]].
  split.
  - apply Hnull. reflexivity.
  - apply Hok. reflexivity.
Defined.

(** ** Clock failure *)

(** C2, as stated, fails: on a UTC host whose clock cannot be read,
    [time] returns -1, [localtime] decomposes it as 1969-12-31 23:59:59,
    and the run prints the default message with exit status 0. *)
Lemma clock_failure_runs_default :
  ~ (forall env : host, clock env = None -> reports_failure (run env)).
Proof.
  intros H. specialize (H (Posix.utc_host None) eq_refl).
  vm_compute in H. destruct H as [H _]. apply H. reflexivity.
Qed.

(** C2, amended.  The program does not look at what [time] returned.
    When the clock cannot be read, the result -1 is decomposed like any
    other instant and the marker is selected by its local date, with
    exit status 0; when [localtime] returns the null pointer the
    behaviour is undefined.  No run reports a failure. *)
Theorem clock_failure_not_detected (env : host) :
  clock env = None ->
  (forall b,
      zone env (-1) = Some b ->
      CInt.is_int (tm_year b) = true ->
      run env =
        Exited 0 (expected_msg b)
               [call_time (-1); call_localtime (-1) static_tm;
                call_printf (expected_msg b)])
  /\ (zone env (-1) = None -> run env = Undefined)
  /\ ~ reports_failure (run env).
Proof.
  intros Hc.
  assert (Ht : time_result env = -1).
  { unfold time_result. rewrite Hc. reflexivity. }
  split; [ | split ].
  - intros b Hz Hy. rewrite <- Ht in Hz.
    rewrite (run_decomposed env b Hz). unfold calls_made.
    rewrite Ht, (selected_expected b Hy). reflexivity.
  - intros Hz. rewrite <- Ht in Hz. apply (run_null env Hz).
  - destruct (zone env (time_result env)) as [ b | ] eqn:E.
    + rewrite (run_decomposed env b E). cbn. intros [H _]. apply H. reflexivity.
    + rewrite (run_null env E). cbn. tauto.
Qed.

Lemma clock_failure_not_detected_witness :
  run (Posix.utc_host None) =
    Exited 0 normal_msg
           [call_time (-1); call_localtime (-1) static_tm;
            call_printf normal_msg]
  /\ ~ reports_failure (run (Posix.utc_host None)).
Proof.
  pose proof (clock_failure_not_detected (Posix.utc_host None) eq_refl)
    as [Hrun [_ Hno]].
  split.
  - apply (Hrun (mk_tm 59 59 23 31 11 69 3 364 0)); reflexivity.
  - exact Hno.
Defined.

(** ** The trigger in clock readings *)

Section Calendar.

Lemma all_from_spec (p : Z -> bool) (n : nat) :
  forall z0, all_from p z0 n = true ->
  forall z, z0 <= z < z0 + Z.of_nat n -> p z = true.
Proof.
  induction n as [ | k IH ]; intros z0 Hall z Hz.
  - lia.
  - cbn [all_from] in Hall.
    destruct (p z0) eqn:E0; [ | discriminate Hall ].
    destruct (Z.eq_dec z z0) as [ -> | Hne ].
    + exact E0.
    + apply (IH (z0 + 1) Hall). lia.
Qed.

Lemma era_days_checked : all_from era_day_ok 0 (Z.to_nat 146097) = true.
Proof. vm_compute. reflexivity. Qed.

Lemma era_day_ok_all (doe : Z) :
  0 <= doe < 146097 -> era_day_ok doe = true.
Proof.
  intros H. apply (all_from_spec _ _ 0 era_days_checked).
  rewrite Z2Nat.id; lia.
Qed.

Lemma civil_by_era (days : Z) :
  Posix.civil_from_days days =
    let z := days + 719468 in
    let '(y0, m, d) := era_date (z mod 146097) in
    (y0 + z / 146097 * 400, m, d).
Proof.
  unfold Posix.civil_from_days, era_date. cbv zeta.
  replace (days + 719468 - (days + 719468) / 146097 * 146097)
    with ((days + 719468) mod 146097)
    by (rewrite Z.mod_eq by lia; ring).
  f_equal. f_equal. ring.
Qed.

(** The year of every day lies within its era. *)
Lemma civil_year_in_era (days y m d : Z) :
  Posix.civil_from_days days = (y, m, d) ->
  let era := (days + 719468) / 146097 in
  era * 400 <= y <= era * 400 + 400.
Proof.
  rewrite civil_by_era. cbv zeta.
  pose proof (era_day_ok_all ((days + 719468) mod 146097)
                (Z.mod_pos_bound _ 146097 eq_refl)) as Hok.
  unfold era_day_ok in Hok.
  destruct (era_date ((days + 719468) mod 146097)) as [[y0 m0] d0].
  apply andb_prop in Hok. destruct Hok as [Hy _].
  apply andb_prop in Hy. destruct Hy as [Hlo Hhi].
  apply Z.leb_le in Hlo. apply Z.leb_le in Hhi.
  intros H. injection H as Hy _ _. lia.
Qed.

(** 19 January 2038 is day 24855 since the Epoch, and no other day. *)
Lemma civil_trigger_day (days : Z) :
  Posix.civil_from_days days = (2038, 1, 19) <-> days = 24855.
Proof.
  split; [ | intros ->; reflexivity ].
  rewrite civil_by_era. cbv zeta.
  pose proof (Z.mod_pos_bound (days + 719468) 146097 eq_refl) as Hdoe.
  pose proof (era_day_ok_all _ Hdoe) as Hok.
  pose proof (Z.div_mod (days + 719468) 146097 ltac:(lia)) as Hdm.
  unfold era_day_ok in Hok.
  destruct (era_date ((days + 719468) mod 146097)) as [[y0 m0] d0].
  apply andb_prop in Hok. destruct Hok as [Hy Hiff].
  apply andb_prop in Hy. destruct Hy as [Hlo Hhi].
  apply Z.leb_le in Hlo. apply Z.leb_le in Hhi.
  intros H. injection H as Hy Hm Hd.
  assert (Hera : (days + 719468) / 146097 = 5) by lia.
  rewrite Hera in Hy, Hdm.
  assert (Hy0 : y0 = 38) by lia.
  subst y0 m0 d0. cbn in Hiff.
  destruct ((days + 719468) mod 146097 =? 13838) eqn:E; [ | discriminate Hiff ].
  apply Z.eqb_eq in E. lia.
Qed.

Lemma gmtime_date (s : time_t) (b : tm) :
  Posix.gmtime s = Some b ->
  Posix.civil_from_days (s / 86400) = (tm_year b + 1900, tm_mon b + 1, tm_mday b)
  /\ CInt.is_int (tm_year b) = true.
Proof.
  unfold Posix.gmtime.
  destruct (Posix.civil_from_days (s / 86400)) as [[y m] d].
  destruct (CInt.is_int (y - 1900)) eqn:Ey; [ | discriminate ].
  intros H. injection H as <-. cbn. split; [ | exact Ey ].
  replace (y - 1900 + 1900) with y by ring.
  replace (m - 1 + 1) with m by ring. reflexivity.
Qed.

(** Every instant within 2^55 seconds of the Epoch has a broken-down
    time. *)
Lemma gmtime_defined (s : time_t) :
  - 2 ^ 55 <= s <= 2 ^ 55 -> exists b, Posix.gmtime s = Some b.
Proof.
  intros Hs. unfold Posix.gmtime.
  destruct (Posix.civil_from_days (s / 86400)) as [[y m] d] eqn:Ec.
  pose proof (civil_year_in_era _ _ _ _ Ec) as Hy. cbv zeta in Hy.
  assert (Hint : CInt.is_int (y - 1900) = true).
  { unfold CInt.is_int, CInt.INT_MIN, CInt.INT_MAX.
    apply andb_true_intro. rewrite !Z.leb_le.
    Z.to_euclidean_division_equations. lia. }
  rewrite Hint. eauto.
Qed.

(** No instant 2^57 seconds or more away from the Epoch has one: its
    year does not fit an [int]. *)
Lemma gmtime_null (s : time_t) :
  s <= - 2 ^ 57 \/ 2 ^ 57 <= s -> Posix.gmtime s = None.
Proof.
  intros Hs. unfold Posix.gmtime.
  destruct (Posix.civil_from_days (s / 86400)) as [[y m] d] eqn:Ec.
  pose proof (civil_year_in_era _ _ _ _ Ec) as Hy. cbv zeta in Hy.
  assert (Hint : CInt.is_int (y - 1900) = false).
  { unfold CInt.is_int, CInt.INT_MIN, CInt.INT_MAX.
    apply andb_false_iff. rewrite !Z.leb_gt.
    Z.to_euclidean_division_equations. lia. }
  rewrite Hint. reflexivity.
Qed.

Lemma window_day (local : Z) :
  in_trigger_window local = true <-> local / 86400 = 24855.
Proof.
  unfold in_trigger_window, trigger_first, trigger_last.
  rewrite andb_true_iff, !Z.leb_le.
  Z.to_euclidean_division_equations. lia.
Qed.

(** On a host whose local time is UTC plus [offset], the marker [main]
    selects is the one of the window. *)
Lemma selected_window (local : Z) (b : tm) :
  Posix.gmtime local = Some b -> selected_msg b = window_msg local.
Proof.
  intros Hg. destruct (gmtime_date _ _ Hg) as [Hc Hy].
  rewrite (selected_expected b Hy).
  unfold expected_msg, window_msg.
  destruct (in_trigger_window local) eqn:Ew.
  - apply window_day in Ew. rewrite Ew in Hc.
    change (Posix.civil_from_days 24855) with (2038, 1, 19) in Hc.
    injection Hc as H1 H2 H3.
    unfold is_trigger_date, local_year, January.
    rewrite <- H1, <- H3.
    replace (tm_mon b) with 0 by lia. reflexivity.
  - destruct (is_trigger_date b) eqn:Et; [ | reflexivity ].
    apply is_trigger_date_iff in Et. destruct Et as [H1 [H2 H3]].
    unfold local_year, January in *.
    rewrite H1, H2, H3 in Hc. cbn in Hc.
    apply civil_trigger_day in Hc. apply window_day in Hc.
    congruence.
Qed.

Lemma run_fixed_offset (env : host) (offset : Z) :
  zone env = Posix.fixed_offset offset ->
  - 2 ^ 55 <= time_result env + offset <= 2 ^ 55 ->
  run env =
    Exited 0 (window_msg (time_result env + offset))
           (calls_made env (window_msg (time_result env + offset))).
Proof.
  intros Hz Hs.
  destruct (gmtime_defined _ Hs) as [b Hb].
  assert (Hzb : zone env (time_result env) = Some b).
  { rewrite Hz. exact Hb. }
  rewrite (run_decomposed env b Hzb), (selected_window _ b Hb). reflexivity.
Qed.

End Calendar.

(** ** Further properties of [main] *)

(** X1.  [main] cannot tell a failed clock read from the instant one
    second before the Epoch: a run whose clock is unreadable and a run
    whose clock reads -1 have the same outcome whenever their time-zone
    rules decompose -1 alike. *)
Theorem failed_clock_is_instant_minus_one (env1 env2 : host) :
  clock env1 = None ->
  clock env2 = Some (-1) ->
  zone env1 (-1) = zone env2 (-1) ->
  run env1 = run env2.
Proof.
  intros H1 H2 Hz.
  assert (T1 : time_result env1 = -1) by (unfold time_result; rewrite H1; reflexivity).
  assert (T2 : time_result env2 = -1) by (unfold time_result; rewrite H2; reflexivity).
  destruct (zone env2 (-1)) as [ b | ] eqn:E2.
  - rewrite <- T1 in Hz. rewrite <- T2 in E2.
    rewrite (run_decomposed env1 b Hz), (run_decomposed env2 b E2).
    unfold calls_made. rewrite T1, T2. reflexivity.
  - rewrite <- T1 in Hz. rewrite <- T2 in E2.
    rewrite (run_null env1 Hz), (run_null env2 E2). reflexivity.
Qed.

Lemma failed_clock_is_instant_minus_one_witness :
  run (Posix.cet_host None) = run (Posix.cet_host (Some (-1))).
Proof.
  apply (failed_clock_is_instant_minus_one
           (Posix.cet_host None) (Posix.cet_host (Some (-1))));
    reflexivity.
Defined.

(** X2.  In clock readings: on a host whose local time is UTC plus a
    fixed offset, and for readings within 2^55 seconds of the Epoch, the
    run prints the alternate marker exactly when the local instant
    [s + offset] lies between 2147472000 and 2147558399, the 86400
    seconds of 19 January 2038, and the default marker at every other
    reading; it exits with status 0 in both cases. *)
Theorem trigger_window_fixed_offset (offset : Z) (s : time_t) :
  - 2 ^ 55 <= s + offset <= 2 ^ 55 ->
  let msg :=
    if (2147472000 <=? s + offset) && (s + offset <=? 2147558399)
    then nuke_msg else normal_msg in
  run (mk_host (Some s) (Posix.fixed_offset offset)) =
    Exited 0 msg [call_time s; call_localtime s static_tm; call_printf msg].
Proof.
  intros Hs msg.
  apply (run_fixed_offset (mk_host (Some s) (Posix.fixed_offset offset)) offset);
    [ reflexivity | exact Hs ].
Qed.

Lemma trigger_window_fixed_offset_witness :
  run (mk_host (Some 2147468400) (Posix.fixed_offset 3600)) =
    Exited 0 nuke_msg
           [call_time 2147468400; call_localtime 2147468400 static_tm;
            call_printf nuke_msg]
  /\ run (mk_host (Some 2147468399) (Posix.fixed_offset 3600)) =
       Exited 0 normal_msg
              [call_time 2147468399; call_localtime 2147468399 static_tm;
               call_printf normal_msg].
Proof.
  split.
  - apply (trigger_window_fixed_offset 3600 2147468400). vm_compute.
    split; discriminate.
  - apply (trigger_window_fixed_offset 3600 2147468399). vm_compute.
    split; discriminate.
Defined.

(** X3.  On a host whose local time is within a day of UTC, a failed
    clock read never sets off the alternate action and never makes the
    run undefined: the run prints the default marker and exits with
    status 0. *)
Theorem failed_clock_prints_default (offset : Z) :
  - 86400 <= offset <= 86400 ->
  run (mk_host None (Posix.fixed_offset offset)) =
    Exited 0 normal_msg
           [call_time (-1); call_localtime (-1) static_tm;
            call_printf normal_msg].
Proof.
  intros Ho.
  rewrite (run_fixed_offset (mk_host None (Posix.fixed_offset offset)) offset);
    [ | reflexivity | change (- 2 ^ 55 <= -1 + offset <= 2 ^ 55); lia ].
  assert (Hw : window_msg (time_result (mk_host None (Posix.fixed_offset offset))
                           + offset) = normal_msg).
  { unfold window_msg, in_trigger_window, trigger_first, trigger_last. cbn [time_result clock].
    replace (2147472000 <=? -1 + offset) with false; [ reflexivity | ].
    symmetry. apply Z.leb_gt. lia. }
  rewrite Hw. reflexivity.
Qed.

Lemma failed_clock_prints_default_witness :
  run (mk_host None (Posix.fixed_offset (-18000))) =
    Exited 0 normal_msg
           [call_time (-1); call_localtime (-1) static_tm;
            call_printf normal_msg].
Proof.
  apply (failed_clock_prints_default (-18000)). lia.
Defined.

(** X4.  With a 64-bit [time_t] there are clock readings at which [main]
    is undefined: on a host whose local time is UTC plus a fixed offset,
    every local instant 2^57 seconds or more away from the Epoch has a
    year that does not fit [tm_year], [localtime] returns the null
    pointer and the first field read goes through it. *)
Theorem far_instants_undefined (offset : Z) (s : time_t) :
  s + offset <= - 2 ^ 57 \/ 2 ^ 57 <= s + offset ->
  run (mk_host (Some s) (Posix.fixed_offset offset)) = Undefined.
Proof.
  intros Hs. apply run_null. cbn. unfold Posix.fixed_offset.
  apply gmtime_null. exact Hs.
Qed.

Lemma far_instants_undefined_witness :
  run (mk_host (Some (2 ^ 62)) (Posix.fixed_offset 7200)) = Undefined.
Proof.
  apply (far_instants_undefined 7200 (2 ^ 62)). right. vm_compute.
  discriminate.
Defined.
